(** * The document-state handler of [src/lambda/state-manager.py]

    A shallow embedding of the Lambda handler that keeps, per file name, the
    processing state of a document in a DynamoDB table, and the properties
    its specification states about it.

    Python values are embedded as the inductive [value]; the handler's
    effects (the table, the wall clock, standard output, exceptions) are
    threaded through the monad [M] over an explicit [world].  Python's
    [json.loads] is a parameter of the development, [json.dumps] is kept
    symbolic (a response body is identified by the document it serialises). *)

From Stdlib Require Import ZArith NArith String Ascii List Bool Lia.
From Stdlib Require Import Floats.SpecFloat.
From stdpp Require Import gmap strings.

Set Warnings "-register-all".
Open Scope string_scope.

(** ** Python values *)

(** The values a decoded JSON request is made of: [None], booleans, integers,
    floats, strings, lists and string-keyed dictionaries. *)
Inductive value : Type :=
| VNone
| VBool (b : bool)
| VInt (n : Z)
| VFloat (f : spec_float)
| VStr (s : string)
| VList (l : list value)
| VDict (d : gmap string value).

(** [type(v).__name__] *)
Definition type_name (v : value) : string :=
  match v with
  | VNone => "NoneType"
  | VBool _ => "bool"
  | VInt _ => "int"
  | VFloat _ => "float"
  | VStr _ => "str"
  | VList _ => "list"
  | VDict _ => "dict"
  end.

(** [bool(v)]: what [not v] tests. *)
Definition truthy (v : value) : bool :=
  match v with
  | VNone => false
  | VBool b => b
  | VInt n => negb (n =? 0)%Z
  | VFloat (S754_zero _) => false
  | VFloat _ => true
  | VStr s => negb (String.eqb s "")
  | VList l => match l with [] => false | _ :: _ => true end
  | VDict d => negb (size d =? 0)%nat
  end.

(** ** Exceptions *)

Record exn : Type := Exn { exn_class : string; exn_text : string }.

(** [str(e)] *)
Definition str_exn (e : exn) : string := exn_text e.

Definition result (A : Type) : Type := (exn + A)%type.

(** The exception raised by [v.attr] when [v] has no such attribute. *)
Definition AttributeError (v : value) (attr : string) : exn :=
  Exn "AttributeError"
      ("'" +:+ type_name v +:+ "' object has no attribute '" +:+ attr +:+ "'").

(** [obj.get(key, default)]; only dictionaries have a [get]. *)
Definition py_get (obj : value) (key : string) (dflt : value) : result value :=
  match obj with
  | VDict d => inr (default dflt (d !! key))
  | _ => inl (AttributeError obj "get")
  end.

(** ASCII upper-casing of one character. *)
Definition upper_ascii (c : ascii) : ascii :=
  let n := N_of_ascii c in
  if ((97 <=? n) && (n <=? 122))%N then ascii_of_N (n - 32) else c.

(** [s.upper()] on ASCII text. *)
Fixpoint upper (s : string) : string :=
  match s with
  | EmptyString => EmptyString
  | String c r => String (upper_ascii c) (upper r)
  end.

(** [v.upper()]; only strings have an [upper]. *)
Definition py_upper (v : value) : result string :=
  match v with
  | VStr s => inr (upper s)
  | _ => inl (AttributeError v "upper")
  end.

(** Equality of two ASCII texts up to letter case, character by character. *)
Fixpoint caseless_eq (s t : string) : bool :=
  match s, t with
  | EmptyString, EmptyString => true
  | String a s', String b t' =>
      Ascii.eqb (upper_ascii a) (upper_ascii b) && caseless_eq s' t'
  | _, _ => false
  end.

(** ** Responses *)

(** The text [json.dumps] returns for a document.  The serialiser is Python's;
    its output is identified by the document it was given. *)
Inductive json_text : Type := json_dumps (doc : value).

(** [{'statusCode': ..., 'body': ...}] *)
Record response : Type := Response { statusCode : Z; body : json_text }.

(** The document a response body serialises, and one field of it. *)
Definition body_doc (r : response) : value :=
  match body r with json_dumps v => v end.

Definition body_field (r : response) (k : string) : option value :=
  match body_doc r with
  | VDict d => d !! k
  | _ => None
  end.

(** ** The world the handler runs in *)

(** A call to the table, as the handler issues it. *)
Inductive store_call : Type :=
| GetItem (key : value)
| UpdateItem (key : value) (state timestamp metadata : value).

(** A printed line: the pieces of the f-string, literal text and formatted
    values. *)
Inductive fpart : Type :=
| Lit (s : string)
| Fmt (v : value).

Record world : Type := World {
  table : gmap string (gmap string value);
    (* the table: file name |-> attributes of its item *)
  calls : list store_call;
    (* the calls made to the table so far, newest first *)
  faults : nat -> option exn;
    (* the exception the n-th call to the table fails with, if it fails *)
  clock : nat -> string;
    (* the n-th reading of [datetime.utcnow().isoformat()] *)
  reads : nat;
    (* clock readings taken so far *)
  stdout : list (list fpart)
    (* printed lines, newest first *)
}.

Definition set_table (t : gmap string (gmap string value)) (w : world) : world :=
  World t (calls w) (faults w) (clock w) (reads w) (stdout w).

Definition log_call (c : store_call) (w : world) : world :=
  World (table w) (c :: calls w) (faults w) (clock w) (reads w) (stdout w).

Definition tick (w : world) : world :=
  World (table w) (calls w) (faults w) (clock w) (S (reads w)) (stdout w).

Definition log_line (l : list fpart) (w : world) : world :=
  World (table w) (calls w) (faults w) (clock w) (reads w) (l :: stdout w).

(** ** Computations: state and exceptions *)

Definition M (A : Type) : Type := world -> result A * world.

Definition ret {A} (a : A) : M A := fun w => (inr a, w).

Definition raise {A} (e : exn) : M A := fun w => (inl e, w).

Definition bind {A B} (m : M A) (k : A -> M B) : M B :=
  fun w =>
    match m w with
    | (inl e, w') => (inl e, w')
    | (inr a, w') => k a w'
    end.

(** A pure computation that may raise. *)
Definition lift {A} (r : result A) : M A := fun w => (r, w).

(** [try: m  except Exception as e: h e] *)
Definition try_except {A} (m : M A) (h : exn -> M A) : M A :=
  fun w =>
    match m w with
    | (inl e, w') => h e w'
    | (inr a, w') => (inr a, w')
    end.

(** [x ← m; k] and [m ;; k] are stdpp's notations for [bind]. *)
#[global] Instance M_ret : MRet M := @ret.
#[global] Instance M_bind : MBind M := fun A B k m => bind m k.

(** [print(line)] *)
Definition print (l : list fpart) : M unit :=
  fun w => (inr tt, log_line l w).

(** [datetime.utcnow().isoformat()] *)
Definition utcnow_isoformat : M string :=
  fun w => (inr (clock w (reads w)), tick w).

(** ** The table *)

(** The DynamoDB table behind the module-level [table] handle is not part of
    the source: its name comes from the environment, its schema from the
    deployment.  It is modelled as the spec's RecordStore, a key-value
    service keyed by the string attribute [file_name], with
    [GetItem(key) -> Option<Record>] and an atomic [UpsertItem(key, fields)]
    that returns the resulting item.  A call either fails as a whole,
    leaving the table as it was, or takes effect as a whole; which calls
    fail is up to the world ([faults]).  Values come back as they were
    written (the client library's own conversions of numbers are outside
    the model). *)

(** Modelled from the spec: the key schema of the table, which is not in the
    source.  [file_name] is the string primary key of a record, and a key
    that is not a string is refused with this error. *)
Definition key_schema_error (operation : string) : exn :=
  Exn "ClientError"
      ("An error occurred (ValidationException) when calling the " +:+ operation
       +:+ " operation: The provided key element does not match the schema").

(** Modelled from the spec: the effect of the upsert on the table, which is
    not in the source: it "sets state, updated_at and metadata (full
    replace, not merge), creating the record if absent".
    The item [SET #state = :state, updated_at = :timestamp, metadata = :metadata]
    leaves under key [k]: the three attributes are set on the item of that
    key, which is created with its key attribute when absent. *)
Definition upserted (k : string) (state timestamp metadata : value)
    (t : gmap string (gmap string value)) : gmap string value :=
  <[ "metadata" := metadata ]>
    (<[ "updated_at" := timestamp ]>
       (<[ "state" := state ]>
          (default {[ "file_name" := VStr k ]} (t !! k)))).

(** Modelled from the spec: the [GetItem(key) -> Option<Record>] of the
    table, which is not in the source, called as [table.get_item(Key={'file_name': file_name})]; the answer
    has an ['Item'] exactly when the table holds a record under the key. *)
Definition table_get_item (file_name : value) : M (gmap string value) :=
  fun w =>
    let w1 := log_call (GetItem file_name) w in
    match faults w (length (calls w)) with
    | Some e => (inl e, w1)
    | None =>
        match file_name with
        | VStr k =>
            match table w !! k with
            | Some item => (inr {[ "Item" := VDict item ]}, w1)
            | None => (inr ∅, w1)
            end
        | _ => (inl (key_schema_error "GetItem"), w1)
        end
    end.

(** Modelled from the spec: the [UpsertItem(key, fields) -> Record] of the
    table, which is not in the source, called as
    [table.update_item(Key={'file_name': file_name},
      UpdateExpression='SET #state = :state, updated_at = :timestamp, metadata = :metadata',
      ExpressionAttributeNames={'#state': 'state'},
      ExpressionAttributeValues={':state': .., ':timestamp': .., ':metadata': ..},
      ReturnValues='ALL_NEW')]: the upsert, answered with the resulting
    item. *)
Definition table_update_item (file_name state timestamp metadata : value)
  : M (gmap string value) :=
  fun w =>
    let w1 := log_call (UpdateItem file_name state timestamp metadata) w in
    match faults w (length (calls w)) with
    | Some e => (inl e, w1)
    | None =>
        match file_name with
        | VStr k =>
            let new := upserted k state timestamp metadata (table w) in
            (inr {[ "Attributes" := VDict new ]}, set_table (<[ k := new ]> (table w)) w1)
        | _ => (inl (key_schema_error "UpdateItem"), w1)
        end
    end.

(** ** The handler *)

(** [get_state(file_name)], lines 73-104. *)
Definition get_state (file_name : value) : M response :=
  try_except
    (response ← table_get_item file_name;
     match response !! "Item" with
     | Some item =>
         i_file_name ← lift (py_get item "file_name" VNone);
         i_state ← lift (py_get item "state" VNone);
         i_metadata ← lift (py_get item "metadata" (VDict ∅));
         i_updated_at ← lift (py_get item "updated_at" VNone);
         ret (Response 200 (json_dumps (VDict
               {[ "file_name" := i_file_name;
                  "state" := i_state;
                  "metadata" := i_metadata;
                  "updated_at" := i_updated_at;
                  "exists" := VBool true ]})))
     | None =>
         ret (Response 200 (json_dumps (VDict
               {[ "file_name" := file_name;
                  "state" := VNone;
                  "metadata" := VDict ∅;
                  "exists" := VBool false ]})))
     end)
    (fun e =>
       print [Lit "Error getting state for "; Fmt file_name; Lit ": ";
              Fmt (VStr (str_exn e))] ;;
       raise e).

(** [update_state(file_name, new_state, metadata)], lines 107-142. *)
Definition update_state (file_name new_state metadata : value) : M response :=
  try_except
    (timestamp ← utcnow_isoformat;
     response ← table_update_item file_name new_state (VStr timestamp) metadata;
     let updated_item := default (VDict ∅) (response !! "Attributes") in
     u_file_name ← lift (py_get updated_item "file_name" VNone);
     u_state ← lift (py_get updated_item "state" VNone);
     u_metadata ← lift (py_get updated_item "metadata" (VDict ∅));
     u_updated_at ← lift (py_get updated_item "updated_at" VNone);
     ret (Response 200 (json_dumps (VDict
           {[ "file_name" := u_file_name;
              "state" := u_state;
              "metadata" := u_metadata;
              "updated_at" := u_updated_at;
              "success" := VBool true ]}))))
    (fun e =>
       print [Lit "Error updating state for "; Fmt file_name; Lit ": ";
              Fmt (VStr (str_exn e))] ;;
       raise e).

(** The 400 and 500 responses: [{'error': message}] as the body. *)
Definition error_response (code : Z) (message : string) : response :=
  Response code (json_dumps (VDict {[ "error" := VStr message ]})).

(** The handler's work on the request payload, lines 33-63. *)
Definition dispatch (body : value) : M response :=
  op ← lift (py_get body "operation" (VStr ""));
  operation ← lift (py_upper op);
  file_name ← lift (py_get body "file_name" VNone);
  if negb (truthy file_name) then
    ret (error_response 400 "file_name is required")
  else if String.eqb operation "GET" then
    get_state file_name
  else if String.eqb operation "UPDATE" then
    new_state ← lift (py_get body "new_state" VNone);
    metadata ← lift (py_get body "metadata" (VDict ∅));
    if negb (truthy new_state) then
      ret (error_response 400 "new_state is required for UPDATE operation")
    else
      update_state file_name new_state metadata
  else
    ret (error_response 400
           ("Invalid operation: " +:+ operation +:+ ". Use GET or UPDATE")).

Section Handler.

(** Python's [json.loads] on a string: the decoded document, or the
    exception it raises. *)
Variable json_loads : string -> result value.

(** The request payload, lines 28-31. *)
Definition parse_body (event : value) : result value :=
  match py_get event "body" VNone with
  | inl e => inl e
  | inr (VStr s) => json_loads s
  | inr _ => py_get event "body" event
  end.

(** The body of the handler's [try], lines 27-63. *)
Definition handle (event : value) : M response :=
  body ← lift (parse_body event);
  dispatch body.

(** [lambda_handler(event, context)], lines 10-70: whatever the body
    raises is printed and turned into a 500 response. *)
Definition lambda_handler (event context : value) (w : world) : response * world :=
  match handle event w with
  | (inr r, w') => (r, w')
  | (inl e, w') =>
      (error_response 500 (str_exn e),
       log_line [Lit "Error: "; Fmt (VStr (str_exn e))] w')
  end.

End Handler.

(** ** Sample inputs *)

(** What [json.loads] raises on text that is not JSON at its first
    character, and what a call to a table that does not exist raises. *)
Definition not_json_error : exn :=
  Exn "JSONDecodeError" "Expecting value: line 1 column 1 (char 0)".

Definition table_missing_error : exn :=
  Exn "ClientError"
      "An error occurred (ResourceNotFoundException) when calling the UpdateItem operation: Requested resource not found".

(** A decoder for the examples: right on the texts they feed it, the empty
    object and text that is not JSON at its first character. *)
Definition json_loads_sample (s : string) : result value :=
  if String.eqb s "{}" then inr (VDict ∅) else inl not_json_error.

(** An empty table that answers every call, and a clock. *)
Definition world0 : world :=
  World ∅ [] (fun _ => None)
        (fun n => if (n =? 0)%nat then "2024-05-01T10:00:00.000125"
                  else "2024-05-01T10:00:01.250000")
        0 [].


(** The same as [world0], with a table whose first call fails. *)
Definition world_down : world :=
  World ∅ []
        (fun n => if (n =? 0)%nat then Some table_missing_error else None)
        (clock world0) 0 [].

(** Requests used in the examples. *)
Definition request_numeric_operation : gmap string value :=
  {[ "operation" := VInt 5 ]}.


Definition request_delete_empty_name : gmap string value :=
  {[ "operation" := VStr "delete"; "file_name" := VStr "" ]}.

Definition request_numeric_operation_empty_name : gmap string value :=
  {[ "operation" := VInt 5; "file_name" := VStr "" ]}.


Definition request_get_no_name : gmap string value :=
  {[ "operation" := VStr "get" ]}.

Definition request_update_no_state : gmap string value :=
  {[ "operation" := VStr "Update"; "file_name" := VStr "doc1.pdf" ]}.

Definition request_update : gmap string value :=
  {[ "operation" := VStr "UPDATE"; "file_name" := VStr "doc1.pdf";
     "new_state" := VStr "PENDING_OCR" ]}.

(** ** Further sample inputs *)

(** A table that holds one record, written without metadata and timestamp. *)
Definition world_with_record : world :=
  World {[ "doc1.pdf" := {[ "file_name" := VStr "doc1.pdf";
                            "state" := VStr "PENDING_OCR" ]} ]}
        [] (fun _ => None) (clock world0) 0 [].

Definition request_get : gmap string value :=
  {[ "operation" := VStr "get"; "file_name" := VStr "doc1.pdf" ]}.

Definition request_update_null_metadata : gmap string value :=
  {[ "operation" := VStr "update"; "file_name" := VStr "doc1.pdf";
     "new_state" := VStr "COMPLETED"; "metadata" := VNone ]}.

Definition request_update_empty_state : gmap string value :=
  {[ "operation" := VStr "UPDATE"; "file_name" := VStr "doc1.pdf";
     "new_state" := VStr "" ]}.

Definition request_get_zero_name : gmap string value :=
  {[ "operation" := VStr "GET"; "file_name" := VInt 0 ]}.

(** ** The key attribute of stored items *)

(** Every item of the table carries, as its [file_name] attribute, the key
    it is stored under. *)
Definition key_consistent (t : gmap string (gmap string value)) : Prop :=
  map_Forall (fun k item => item !! "file_name" = Some (VStr k)) t.

(** A Get that carries fields the handler does not read, and the Get of
    [doc1.pdf] sent inside an event whose [body] is null. *)
Definition request_get_annotated : gmap string value :=
  {[ "operation" := VStr "get"; "file_name" := VStr "doc1.pdf";
     "new_state" := VStr "COMPLETED"; "trace_id" := VInt 42 ]}.

Definition event_null_body : gmap string value :=
  {[ "body" := VNone; "operation" := VStr "GET"; "file_name" := VStr "doc1.pdf" ]}.

(** * Properties *)

(** ** How the computations run *)

Ltac run := unfold mbind, M_bind, bind, mret, M_ret, ret, lift, try_except, raise, print.

Lemma get_state_run (fn : value) (w : world) :
  get_state fn w =
    let w1 := log_call (GetItem fn) w in
    let failed e :=
      (inl e, log_line [Lit "Error getting state for "; Fmt fn; Lit ": ";
                        Fmt (VStr (str_exn e))] w1) in
    match faults w (length (calls w)) with
    | Some e => failed e
    | None =>
        match fn with
        | VStr k =>
            match table w !! k with
            | Some item =>
                (inr (Response 200 (json_dumps (VDict
                   {[ "file_name" := default VNone (item !! "file_name");
                      "state" := default VNone (item !! "state");
                      "metadata" := default (VDict ∅) (item !! "metadata");
                      "updated_at" := default VNone (item !! "updated_at");
                      "exists" := VBool true ]}))), w1)
            | None =>
                (inr (Response 200 (json_dumps (VDict
                   {[ "file_name" := fn; "state" := VNone;
                      "metadata" := VDict ∅; "exists" := VBool false ]}))), w1)
            end
        | _ => failed (key_schema_error "GetItem")
        end
    end.
Proof.
  unfold get_state, table_get_item. run.
  destruct (faults w (length (calls w))) as [e|]; [reflexivity|].
  destruct fn; try reflexivity.
  destruct (table w !! s) as [item|].
  - rewrite lookup_singleton_eq. reflexivity.
  - rewrite lookup_empty. reflexivity.
Qed.

Lemma update_state_run (fn ns md : value) (w : world) :
  update_state fn ns md w =
    let ts := VStr (clock w (reads w)) in
    let w1 := log_call (UpdateItem fn ns ts md) (tick w) in
    let failed e :=
      (inl e, log_line [Lit "Error updating state for "; Fmt fn; Lit ": ";
                        Fmt (VStr (str_exn e))] w1) in
    match faults w (length (calls w)) with
    | Some e => failed e
    | None =>
        match fn with
        | VStr k =>
            let new := upserted k ns ts md (table w) in
            (inr (Response 200 (json_dumps (VDict
               {[ "file_name" := default VNone (new !! "file_name");
                  "state" := ns;
                  "metadata" := md;
                  "updated_at" := ts;
                  "success" := VBool true ]}))),
             set_table (<[ k := new ]> (table w)) w1)
        | _ => failed (key_schema_error "UpdateItem")
        end
    end.
Proof.
  unfold update_state, table_update_item, utcnow_isoformat. run. cbn [tick calls faults table].
  destruct (faults w (length (calls w))) as [e|]; [reflexivity|].
  destruct fn; try reflexivity.
  rewrite lookup_singleton_eq. cbn [from_option id py_get].
  unfold upserted.
  rewrite lookup_insert_eq.
  rewrite (lookup_insert_ne _ "metadata" "updated_at") by done.
  rewrite lookup_insert_eq.
  rewrite (lookup_insert_ne _ "metadata" "state") by done.
  rewrite (lookup_insert_ne _ "updated_at" "state") by done.
  rewrite lookup_insert_eq.
  reflexivity.
Qed.

Lemma dispatch_run (d : gmap string value) (w : world) :
  dispatch (VDict d) w =
    match py_upper (default (VStr "") (d !! "operation")) with
    | inl e => (inl e, w)
    | inr operation =>
        let file_name := default VNone (d !! "file_name") in
        if negb (truthy file_name) then
          (inr (error_response 400 "file_name is required"), w)
        else if String.eqb operation "GET" then
          get_state file_name w
        else if String.eqb operation "UPDATE" then
          let new_state := default VNone (d !! "new_state") in
          if negb (truthy new_state) then
            (inr (error_response 400 "new_state is required for UPDATE operation"), w)
          else
            update_state file_name new_state (default (VDict ∅) (d !! "metadata")) w
        else
          (inr (error_response 400
                  ("Invalid operation: " +:+ operation +:+ ". Use GET or UPDATE")), w)
    end.
Proof.
  unfold dispatch. run. cbn [py_get].
  destruct (py_upper _) as [e|operation]; [reflexivity|].
  cbv zeta.
  destruct (negb (truthy (default VNone (d !! "file_name")))); [reflexivity|].
  destruct (String.eqb operation "GET"); [reflexivity|].
  destruct (String.eqb operation "UPDATE"); [|reflexivity].
  destruct (negb (truthy (default VNone (d !! "new_state")))); reflexivity.
Qed.

Lemma dispatch_not_dict (b : value) (w : world) :
  (forall d, b <> VDict d) ->
  dispatch b w = (inl (AttributeError b "get"), w).
Proof.
  intros Hb. destruct b; try reflexivity. now destruct (Hb d).
Qed.




Section HandlerFacts.
Variable json_loads : string -> result value.

Lemma handle_payload (event b : value) (w : world) :
  parse_body json_loads event = inr b ->
  handle json_loads event w = dispatch b w.
Proof.
  intros Hb. unfold handle. run. rewrite Hb. now destruct (dispatch b w) as [[e|r] w'].
Qed.

Lemma handle_parse_error (event : value) (e : exn) (w : world) :
  parse_body json_loads event = inl e ->
  handle json_loads event w = (inl e, w).
Proof. intros Hb. unfold handle. run. now rewrite Hb. Qed.


Lemma lambda_handler_payload (event context b : value) (w : world) :
  parse_body json_loads event = inr b ->
  lambda_handler json_loads event context w =
    match dispatch b w with
    | (inr r, w') => (r, w')
    | (inl e, w') =>
        (error_response 500 (str_exn e),
         log_line [Lit "Error: "; Fmt (VStr (str_exn e))] w')
    end.
Proof. intros Hb. unfold lambda_handler. now rewrite (handle_payload _ _ _ Hb). Qed.

End HandlerFacts.

(** ** Reading fields of a response *)

Ltac fields :=
  unfold body_field, body_doc, error_response; cbn [body statusCode];
  repeat first
    [ rewrite lookup_insert_eq
    | rewrite lookup_singleton_eq
    | rewrite lookup_insert_ne by done
    | rewrite lookup_singleton_ne by done ];
  try reflexivity.

Lemma upserted_state k ns ts md t : upserted k ns ts md t !! "state" = Some ns.
Proof. unfold upserted. now fields. Qed.

Lemma upserted_metadata k ns ts md t : upserted k ns ts md t !! "metadata" = Some md.
Proof. unfold upserted. now fields. Qed.

Lemma upserted_updated_at k ns ts md t : upserted k ns ts md t !! "updated_at" = Some ts.
Proof. unfold upserted. now fields. Qed.

(** ** Get and Update

    What a returning [update_state] has done. *)
Lemma update_state_returns (fn ns md : value) (w w1 : world) (r : response) :
  update_state fn ns md w = (inr r, w1) ->
  exists k,
    fn = VStr k /\
    let ts := VStr (clock w (reads w)) in
    let new := upserted k ns ts md (table w) in
    table w1 = <[ k := new ]> (table w) /\
    calls w1 = UpdateItem fn ns ts md :: calls w /\
    faults w1 = faults w /\ clock w1 = clock w /\ reads w1 = S (reads w) /\
    r = Response 200 (json_dumps (VDict
          {[ "file_name" := default VNone (new !! "file_name");
             "state" := ns; "metadata" := md; "updated_at" := ts;
             "success" := VBool true ]})).
Proof.
  rewrite update_state_run. cbv zeta.
  destruct (faults w (length (calls w))) as [e|]; [discriminate|].
  destruct fn as [| | | |k| |]; try discriminate.
  intros [= <- <-]. exists k. repeat split.
Qed.


(** C1: an Update that succeeds followed by a Get of the same file name:
    the Get answers 200 with the state, the metadata and the [updated_at]
    the Update has just written, and [exists] true.  The Get is one the
    table answers. *)
Theorem C1_update_then_get (file_name new_state metadata : value)
    (w w1 : world) (r1 : response) :
  update_state file_name new_state metadata w = (inr r1, w1) ->
  faults w1 (length (calls w1)) = None ->
  exists (r2 : response) (w2 : world) (written_at : value),
    hd_error (calls w1) = Some (UpdateItem file_name new_state written_at metadata) /\
    body_field r1 "updated_at" = Some written_at /\
    get_state file_name w1 = (inr r2, w2) /\
    statusCode r2 = 200%Z /\
    body_field r2 "state" = Some new_state /\
    body_field r2 "metadata" = Some metadata /\
    body_field r2 "updated_at" = Some written_at /\
    body_field r2 "exists" = Some (VBool true).
Proof.
  intros Hu Hf.
  destruct (update_state_returns _ _ _ _ _ _ Hu) as (k & -> & Ht & Hc & _ & _ & _ & ->).
  cbv zeta in Ht, Hc.
  rewrite get_state_run, Hf. cbv zeta. rewrite Ht, lookup_insert_eq.
  rewrite upserted_state, upserted_metadata, upserted_updated_at.
  cbn [from_option id].
  do 3 eexists. split; [now rewrite Hc|]. split; [now fields|].
  split; [reflexivity|]. split; [reflexivity|]. repeat split; now fields.
Qed.

(** A first Update of [doc1.pdf] on an empty table, then a Get. *)
Lemma C1_witness :
  exists (r2 : response) (w2 : world) (written_at : value),
    hd_error (calls (snd (update_state (VStr "doc1.pdf") (VStr "PENDING_OCR") (VDict ∅) world0)))
      = Some (UpdateItem (VStr "doc1.pdf") (VStr "PENDING_OCR") written_at (VDict ∅)) /\
    body_field (Response 200 (json_dumps (VDict
        {[ "file_name" := VStr "doc1.pdf"; "state" := VStr "PENDING_OCR";
           "metadata" := VDict ∅; "updated_at" := VStr "2024-05-01T10:00:00.000125";
           "success" := VBool true ]}))) "updated_at" = Some written_at /\
    get_state (VStr "doc1.pdf")
      (snd (update_state (VStr "doc1.pdf") (VStr "PENDING_OCR") (VDict ∅) world0))
      = (inr r2, w2) /\
    statusCode r2 = 200%Z /\
    body_field r2 "state" = Some (VStr "PENDING_OCR") /\
    body_field r2 "metadata" = Some (VDict ∅) /\
    body_field r2 "updated_at" = Some written_at /\
    body_field r2 "exists" = Some (VBool true).
Proof.
  apply (C1_update_then_get (VStr "doc1.pdf") (VStr "PENDING_OCR") (VDict ∅) world0).
  - vm_compute. reflexivity.
  - vm_compute. reflexivity.
Defined.



(** C3: a Get of a file name the table holds no record of returns (it does
    not raise) a 200 response with [state] null, [metadata] the empty
    mapping, [exists] false and no [updated_at] field; the table is left as
    it was. *)
Theorem C3_get_absent (k : string) (w : world) :
  table w !! k = None ->
  faults w (length (calls w)) = None ->
  exists (r : response) (w' : world),
    get_state (VStr k) w = (inr r, w') /\
    r = Response 200 (json_dumps (VDict
          {[ "file_name" := VStr k; "state" := VNone;
             "metadata" := VDict ∅; "exists" := VBool false ]})) /\
    body_field r "updated_at" = None /\
    table w' = table w.
Proof.
  intros Hk Hf. rewrite get_state_run, Hf, Hk. cbv zeta.
  do 2 eexists. split; [reflexivity|]. split; [reflexivity|].
  split; [now fields|reflexivity].
Qed.

(** A Get of [missing.pdf] on an empty table. *)
Lemma C3_witness :
  exists (r : response) (w' : world),
    get_state (VStr "missing.pdf") world0 = (inr r, w') /\
    r = Response 200 (json_dumps (VDict
          {[ "file_name" := VStr "missing.pdf"; "state" := VNone;
             "metadata" := VDict ∅; "exists" := VBool false ]})) /\
    body_field r "updated_at" = None /\
    table w' = table world0.
Proof.
  apply (C3_get_absent "missing.pdf" world0); reflexivity.
Defined.




(** ** Letter case *)

Lemma caseless_eq_upper (s t : string) :
  caseless_eq s t = String.eqb (upper s) (upper t).
Proof.
  revert t. induction s as [|a s IH]; intros [|b t]; try reflexivity.
  cbn [caseless_eq upper]. rewrite IH. cbn [String.eqb].
  now destruct (Ascii.eqb (upper_ascii a) (upper_ascii b)).
Qed.

Lemma caseless_eq_GET (s : string) :
  caseless_eq s "GET" = String.eqb (upper s) "GET".
Proof. apply caseless_eq_upper. Qed.

Lemma caseless_eq_UPDATE (s : string) :
  caseless_eq s "UPDATE" = String.eqb (upper s) "UPDATE".
Proof. apply caseless_eq_upper. Qed.

(** ** The handler *)

Section HandlerProperties.

Variable json_loads : string -> result value.

(** C10: the payload of an event.  A [body] that is a string is decoded
    with [json.loads] and the result (or the exception) is the payload; a
    [body] that is present and not a string is the payload as it is; with no
    [body] field the event itself is the payload. *)
Theorem C10_payload_selection (ev : gmap string value) :
  (forall s, ev !! "body" = Some (VStr s) ->
     parse_body json_loads (VDict ev) = json_loads s) /\
  (forall v, ev !! "body" = Some v -> (forall s, v <> VStr s) ->
     parse_body json_loads (VDict ev) = inr v) /\
  (ev !! "body" = None ->
     parse_body json_loads (VDict ev) = inr (VDict ev)).
Proof.
  unfold parse_body, py_get. repeat split.
  - intros s ->. reflexivity.
  - intros v -> Hv. cbn [from_option id]. destruct v; try reflexivity.
    now destruct (Hv s).
  - intros ->. reflexivity.
Qed.

(** C4, as the code has it: a payload without [file_name] whose
    [operation] is absent or a string, whatever its text, is answered 400
    with the error "file_name is required"; nothing else happens, the table
    is not called. *)
Theorem C4_missing_file_name (event context : value) (d : gmap string value)
    (op : string) (w : world) :
  parse_body json_loads event = inr (VDict d) ->
  d !! "file_name" = None ->
  default (VStr "") (d !! "operation") = VStr op ->
  lambda_handler json_loads event context w
    = (error_response 400 "file_name is required", w) /\
  body_field (error_response 400 "file_name is required") "error"
    = Some (VStr "file_name is required").
Proof.
  intros Hb Hfn Hop. split; [|now fields].
  rewrite (lambda_handler_payload _ _ _ _ _ Hb), dispatch_run, Hop, Hfn.
  reflexivity.
Qed.


(** C6: an UPDATE request that carries a [file_name] and no [new_state] is
    answered 400 with an [error] field, and the table is not called.  With a
    [file_name] that is not empty the error is the one about [new_state]. *)
Theorem C6_update_without_new_state (event context : value) (d : gmap string value)
    (file_name : value) (op : string) (w : world) :
  parse_body json_loads event = inr (VDict d) ->
  d !! "operation" = Some (VStr op) ->
  caseless_eq op "UPDATE" = true ->
  d !! "file_name" = Some file_name ->
  d !! "new_state" = None ->
  exists message : string,
    lambda_handler json_loads event context w = (error_response 400 message, w) /\
    body_field (error_response 400 message) "error" = Some (VStr message) /\
    (truthy file_name = true ->
       message = "new_state is required for UPDATE operation").
Proof.
  intros Hb Hop Hupd Hfn Hns. rewrite caseless_eq_UPDATE in Hupd.
  rewrite (lambda_handler_payload _ _ _ _ _ Hb), dispatch_run, Hop, Hfn, Hns.
  cbn [py_upper from_option id]. cbv zeta.
  destruct (truthy file_name); cbn [negb].
  - assert (Hget : String.eqb (upper op) "GET" = false).
    { apply String.eqb_eq in Hupd. now rewrite Hupd. }
    rewrite Hget, Hupd. cbn [truthy negb].
    eexists. split; [reflexivity|]. split; [now fields | reflexivity].
  - eexists. split; [reflexivity|]. split; [now fields | discriminate].
Qed.


(** C9, as the code has it: a request whose [file_name] is the empty
    string is handled as the same request without the field, with the same
    response and the same effects, and the table is not called.  When its
    [operation] is absent or a string, that response is the 400
    "file_name is required". *)
Theorem C9_empty_file_name (event event' context : value) (d : gmap string value)
    (w : world) :
  parse_body json_loads event = inr (VDict d) ->
  d !! "file_name" = Some (VStr "") ->
  parse_body json_loads event' = inr (VDict (delete "file_name" d)) ->
  lambda_handler json_loads event context w = lambda_handler json_loads event' context w /\
  calls (snd (lambda_handler json_loads event context w)) = calls w /\
  (forall op, default (VStr "") (d !! "operation") = VStr op ->
     lambda_handler json_loads event context w
       = (error_response 400 "file_name is required", w)).
Proof.
  intros Hb Hfn Hb'.
  rewrite (lambda_handler_payload _ _ _ _ _ Hb), (lambda_handler_payload _ _ _ _ _ Hb').
  rewrite !dispatch_run, Hfn, lookup_delete_eq.
  rewrite (lookup_delete_ne d "file_name" "operation") by done.
  cbn [from_option id truthy String.eqb negb]. cbv zeta.
  destruct (py_upper _) as [e|operation] eqn:Hu.
  - repeat split. intros op Hop. rewrite Hop in Hu. discriminate.
  - repeat split.
Qed.

End HandlerProperties.

(** ** The properties at sample requests *)

(** A string body, a numeric body and an event without body. *)
Lemma C10_witness :
  parse_body json_loads_sample (VDict {[ "body" := VStr "{}" ]}) = json_loads_sample "{}" /\
  parse_body json_loads_sample (VDict {[ "body" := VInt 7 ]}) = inr (VInt 7) /\
  parse_body json_loads_sample (VDict request_update) = inr (VDict request_update).
Proof.
  split; [|split].
  - apply (proj1 (C10_payload_selection json_loads_sample {[ "body" := VStr "{}" ]})).
    reflexivity.
  - apply (proj1 (proj2 (C10_payload_selection json_loads_sample {[ "body" := VInt 7 ]})));
      [reflexivity | discriminate].
  - apply (proj2 (proj2 (C10_payload_selection json_loads_sample request_update))).
    reflexivity.
Defined.

(** [{"operation": "get"}] *)
Lemma C4_witness :
  lambda_handler json_loads_sample (VDict request_get_no_name) VNone world0
    = (error_response 400 "file_name is required", world0) /\
  body_field (error_response 400 "file_name is required") "error"
    = Some (VStr "file_name is required").
Proof.
  apply (C4_missing_file_name json_loads_sample (VDict request_get_no_name) VNone
           request_get_no_name "get" world0); reflexivity.
Defined.

(** [{"operation": 5}] has no [file_name] and is answered 500: [(5).upper()]
    raises before [file_name] is looked at. *)
Lemma C4_counterexample :
  parse_body json_loads_sample (VDict request_numeric_operation)
    = inr (VDict request_numeric_operation) /\
  request_numeric_operation !! "file_name" = None /\
  fst (lambda_handler json_loads_sample (VDict request_numeric_operation) VNone world0)
    = error_response 500 "'int' object has no attribute 'upper'" /\
  statusCode (fst (lambda_handler json_loads_sample (VDict request_numeric_operation)
                     VNone world0)) <> 400%Z.
Proof.
  repeat split; try (vm_compute; reflexivity). vm_compute. discriminate.
Qed.



(** [{"operation": "Update", "file_name": "doc1.pdf"}] *)
Lemma C6_witness :
  exists message : string,
    lambda_handler json_loads_sample (VDict request_update_no_state) VNone world0
      = (error_response 400 message, world0) /\
    body_field (error_response 400 message) "error" = Some (VStr message) /\
    (truthy (VStr "doc1.pdf") = true ->
       message = "new_state is required for UPDATE operation").
Proof.
  apply (C6_update_without_new_state json_loads_sample (VDict request_update_no_state) VNone
           request_update_no_state (VStr "doc1.pdf") "Update" world0); reflexivity.
Defined.


(** [{"operation": "delete", "file_name": ""}] *)
Lemma C9_witness :
  lambda_handler json_loads_sample (VDict request_delete_empty_name) VNone world0
    = (error_response 400 "file_name is required", world0).
Proof.
  refine (proj2 (proj2 (C9_empty_file_name json_loads_sample
            (VDict request_delete_empty_name) (VDict {[ "operation" := VStr "delete" ]})
            VNone request_delete_empty_name world0 _ _ _)) "delete" _);
    vm_compute; reflexivity.
Defined.

(** [{"operation": 5, "file_name": ""}] is answered 500. *)
Lemma C9_counterexample :
  request_numeric_operation_empty_name !! "file_name" = Some (VStr "") /\
  fst (lambda_handler json_loads_sample (VDict request_numeric_operation_empty_name)
         VNone world0)
    = error_response 500 "'int' object has no attribute 'upper'" /\
  statusCode (fst (lambda_handler json_loads_sample
                     (VDict request_numeric_operation_empty_name) VNone world0)) <> 400%Z.
Proof.
  repeat split; try (vm_compute; reflexivity). vm_compute. discriminate.
Qed.

(** The scenario of the specification, run through the handler: an Update
    of [doc1.pdf], a Get of it, and a Get of [missing.pdf]. *)
Example scenario_update_get :
  let update := lambda_handler json_loads_sample (VDict request_update) VNone world0 in
  let get := lambda_handler json_loads_sample
               (VDict {[ "operation" := VStr "GET"; "file_name" := VStr "doc1.pdf" ]})
               VNone (snd update) in
  let missing := lambda_handler json_loads_sample
               (VDict {[ "operation" := VStr "GET"; "file_name" := VStr "missing.pdf" ]})
               VNone (snd get) in
  (statusCode (fst update), body_field (fst update) "state")
    = (200%Z, Some (VStr "PENDING_OCR")) /\
  (statusCode (fst get), body_field (fst get) "exists", body_field (fst get) "state")
    = (200%Z, Some (VBool true), Some (VStr "PENDING_OCR")) /\
  (statusCode (fst missing), body_field (fst missing) "exists",
   body_field (fst missing) "state")
    = (200%Z, Some (VBool false), Some VNone).
Proof. repeat split; vm_compute; reflexivity. Qed.

(** * Further properties of the handler *)

(** ** Outcomes of the two operations *)

Lemma get_state_outcome (fn : value) (w : world) :
  let w1 := log_call (GetItem fn) w in
  (exists r, get_state fn w = (inr r, w1) /\ statusCode r = 200%Z) \/
  (exists e, get_state fn w =
     (inl e, log_line [Lit "Error getting state for "; Fmt fn; Lit ": ";
                       Fmt (VStr (str_exn e))] w1)).
Proof.
  rewrite get_state_run. cbv zeta.
  destruct (faults w (length (calls w))) as [e|]; [right; eauto|].
  destruct fn as [| | | |k| |]; try solve [right; eauto].
  destruct (table w !! k); left; eauto.
Qed.

Lemma update_state_outcome (fn ns md : value) (w : world) :
  let ts := VStr (clock w (reads w)) in
  let w1 := log_call (UpdateItem fn ns ts md) (tick w) in
  (exists r k, fn = VStr k /\ statusCode r = 200%Z /\
     update_state fn ns md w =
       (inr r, set_table (<[ k := upserted k ns ts md (table w) ]> (table w)) w1)) \/
  (exists e, update_state fn ns md w =
     (inl e, log_line [Lit "Error updating state for "; Fmt fn; Lit ": ";
                       Fmt (VStr (str_exn e))] w1)).
Proof.
  rewrite update_state_run. cbv zeta.
  destruct (faults w (length (calls w))) as [e|]; [right; eauto|].
  destruct fn as [| | | |k| |]; try solve [right; eauto].
  left. do 2 eexists. split; [reflexivity|]. split; [|reflexivity]. reflexivity.
Qed.

(** X1: a Get never writes.  Whatever it returns or raises, [get_state]
    leaves the table as it was, issues exactly one [GetItem] for the file
    name it was given, and does not read the clock. *)
Theorem get_state_read_only (fn : value) (w : world) :
  table (snd (get_state fn w)) = table w /\
  calls (snd (get_state fn w)) = GetItem fn :: calls w /\
  reads (snd (get_state fn w)) = reads w.
Proof.
  destruct (get_state_outcome fn w) as [(r & -> & _)|(e & ->)]; repeat split.
Qed.



(** X3: a Get repeated gives the same answer.  After a Get that returned,
    a second Get of the same file name that the table answers returns the
    same response. *)
Theorem get_state_twice (fn : value) (w w1 : world) (r : response) :
  get_state fn w = (inr r, w1) ->
  faults w1 (length (calls w1)) = None ->
  exists w2 : world, get_state fn w1 = (inr r, w2).
Proof.
  rewrite !get_state_run. cbv zeta.
  destruct (faults w (length (calls w))) as [e|]; [discriminate|].
  destruct fn as [| | | |k| |]; try discriminate.
  destruct (table w !! k) as [item|] eqn:Hk; intros [= <- <-] Hf;
    rewrite Hf; cbn [table log_call]; rewrite Hk; eauto.
Qed.

Lemma get_state_twice_witness :
  exists w2 : world,
    get_state (VStr "doc1.pdf") (snd (get_state (VStr "doc1.pdf") world_with_record))
      = (inr (Response 200 (json_dumps (VDict
           {[ "file_name" := VStr "doc1.pdf"; "state" := VStr "PENDING_OCR";
              "metadata" := VDict ∅; "updated_at" := VNone;
              "exists" := VBool true ]}))), w2).
Proof.
  apply (get_state_twice (VStr "doc1.pdf") world_with_record).
  - vm_compute. reflexivity.
  - vm_compute. reflexivity.
Defined.

(** X4: an Update touches one record only.  Whatever an Update of one file
    name does, the record of every other file name is as it was, and a Get
    of another file name answers as it would have before. *)
Theorem update_state_other_key (fn ns md : value) (k' : string) (w : world) :
  fn <> VStr k' ->
  table (snd (update_state fn ns md w)) !! k' = table w !! k' /\
  (faults w (length (calls w)) = None ->
   faults (snd (update_state fn ns md w))
          (length (calls (snd (update_state fn ns md w)))) = None ->
   fst (get_state (VStr k') (snd (update_state fn ns md w)))
     = fst (get_state (VStr k') w)).
Proof.
  intros Hne.
  assert (Ht : table (snd (update_state fn ns md w)) !! k' = table w !! k').
  { destruct (update_state_outcome fn ns md w) as [(r & k & -> & _ & ->)|(e & ->)];
      cbn [snd table set_table log_call log_line tick]; [|reflexivity].
    apply lookup_insert_ne. congruence. }
  split; [exact Ht|]. intros Hf Hf'.
  rewrite !get_state_run. cbv zeta. rewrite Hf, Hf', Ht.
  now destruct (table w !! k').
Qed.

(** An Update of [doc1.pdf] next to a Get of [other.pdf]. *)
Lemma update_state_other_key_witness :
  table (snd (update_state (VStr "doc1.pdf") (VStr "COMPLETED") (VDict ∅) world_with_record))
    !! "other.pdf" = table world_with_record !! "other.pdf" /\
  fst (get_state (VStr "other.pdf")
         (snd (update_state (VStr "doc1.pdf") (VStr "COMPLETED") (VDict ∅) world_with_record)))
    = fst (get_state (VStr "other.pdf") world_with_record).
Proof.
  destruct (update_state_other_key (VStr "doc1.pdf") (VStr "COMPLETED") (VDict ∅)
              "other.pdf" world_with_record) as [Htable Hget]; [discriminate|].
  split; [exact Htable|]. apply Hget; reflexivity.
Defined.

(** ** Which requests reach the table *)

Lemma dispatch_valid_cases (d : gmap string value) (w : world) :
  (exists e, dispatch (VDict d) w = (inl e, w)) \/
  (exists msg, dispatch (VDict d) w = (inr (error_response 400 msg), w)) \/
  (exists op fn,
     d !! "operation" = Some (VStr op) /\ caseless_eq op "GET" = true /\
     d !! "file_name" = Some fn /\ truthy fn = true /\
     dispatch (VDict d) w = get_state fn w) \/
  (exists op fn ns,
     d !! "operation" = Some (VStr op) /\ caseless_eq op "UPDATE" = true /\
     d !! "file_name" = Some fn /\ truthy fn = true /\
     d !! "new_state" = Some ns /\ truthy ns = true /\
     dispatch (VDict d) w
       = update_state fn ns (default (VDict ∅) (d !! "metadata")) w).
Proof.
  rewrite dispatch_run.
  destruct (d !! "file_name") as [fn|] eqn:Hfn; cbn [from_option id].
  2: { destruct (py_upper _); [left; eauto | right; left; cbn; eauto]. }
  destruct (d !! "operation") as [o|] eqn:Hop; cbn [from_option id].
  2: { cbn [py_upper upper String.eqb]. cbv zeta.
       destruct (negb (truthy fn)); right; left; eauto. }
  destruct o as [| | | |op| |]; try solve [left; cbn; eauto].
  cbn [py_upper]. cbv zeta.
  destruct (truthy fn) eqn:Ht; cbn [negb]; [|right; left; eauto].
  destruct (String.eqb (upper op) "GET") eqn:Hg.
  { right; right; left. exists op, fn. rewrite caseless_eq_GET. auto. }
  destruct (String.eqb (upper op) "UPDATE") eqn:Hu; [|right; left; eauto].
  destruct (d !! "new_state") as [ns|] eqn:Hns; cbn [from_option id];
    [|right; left; cbn; eauto].
  destruct (truthy ns) eqn:Htn; cbn [negb]; [|right; left; eauto].
  right; right; right. exists op, fn, ns. rewrite caseless_eq_UPDATE. auto 10.
Qed.

Section HandlerOutcomes.

Variable json_loads : string -> result value.

Lemma handle_valid_cases (event : value) (w : world) :
  (exists e, handle json_loads event w = (inl e, w)) \/
  (exists msg, handle json_loads event w = (inr (error_response 400 msg), w)) \/
  (exists d op fn,
     parse_body json_loads event = inr (VDict d) /\
     d !! "operation" = Some (VStr op) /\ caseless_eq op "GET" = true /\
     d !! "file_name" = Some fn /\ truthy fn = true /\
     handle json_loads event w = get_state fn w) \/
  (exists d op fn ns,
     parse_body json_loads event = inr (VDict d) /\
     d !! "operation" = Some (VStr op) /\ caseless_eq op "UPDATE" = true /\
     d !! "file_name" = Some fn /\ truthy fn = true /\
     d !! "new_state" = Some ns /\ truthy ns = true /\
     handle json_loads event w
       = update_state fn ns (default (VDict ∅) (d !! "metadata")) w).
Proof.
  destruct (parse_body json_loads event) as [e|b] eqn:Hb.
  - left. exists e. now apply handle_parse_error.
  - rewrite (handle_payload _ _ _ w Hb).
    destruct b as [| | | | | |d];
      try solve [left; eexists; apply dispatch_not_dict; discriminate].
    destruct (dispatch_valid_cases d w)
      as [He|[Hm|[(op & fn & H)|(op & fn & ns & H)]]]; [auto | auto | |].
    + right; right; left. exists d, op, fn. tauto.
    + right; right; right. exists d, op, fn, ns. tauto.
Qed.


(** X6: the table is called for valid requests only.  When the handler
    has called the table, the payload was an object with a truthy
    [file_name] and an [operation] string equal, up to letter case, to GET,
    and the call was the [GetItem] of that file name, or to UPDATE with a
    truthy [new_state], and the call was the [UpdateItem] of that file
    name with that state, the clock reading and the metadata given ([{}]
    when absent). *)
Theorem table_called_for_valid_requests (event context : value) (w : world) :
  calls (snd (lambda_handler json_loads event context w)) <> calls w ->
  exists (d : gmap string value) (op : string) (fn : value),
    parse_body json_loads event = inr (VDict d) /\
    d !! "operation" = Some (VStr op) /\
    d !! "file_name" = Some fn /\ truthy fn = true /\
    ((caseless_eq op "GET" = true /\
      calls (snd (lambda_handler json_loads event context w)) = GetItem fn :: calls w) \/
     (caseless_eq op "UPDATE" = true /\
      exists ns, d !! "new_state" = Some ns /\ truthy ns = true /\
        calls (snd (lambda_handler json_loads event context w))
          = UpdateItem fn ns (VStr (clock w (reads w)))
              (default (VDict ∅) (d !! "metadata")) :: calls w)).
Proof.
  unfold lambda_handler.
  destruct (handle_valid_cases event w)
    as [(e & ->)|[(msg & ->)|[(d & op & fn & Hb & Hop & Hc & Hfn & Ht & ->)
       |(d & op & fn & ns & Hb & Hop & Hc & Hfn & Ht & Hns & Htn & ->)]]].
  - intros H. now destruct H.
  - intros H. now destruct H.
  - intros _. exists d, op, fn. repeat (split; [assumption|]). left.
    split; [assumption|].
    destruct (get_state_outcome fn w) as [(r0 & -> & Hs)|(e & ->)]; reflexivity.
  - intros _. exists d, op, fn. repeat (split; [assumption|]). right.
    split; [assumption|]. exists ns. repeat (split; [assumption|]).
    destruct (update_state_outcome fn ns (default (VDict ∅) (d !! "metadata")) w)
      as [(r0 & k & _ & Hs & ->)|(e & ->)]; reflexivity.
Qed.

End HandlerOutcomes.


Lemma table_called_for_valid_requests_witness :
  exists (d : gmap string value) (op : string) (fn : value),
    parse_body json_loads_sample (VDict request_update_null_metadata) = inr (VDict d) /\
    d !! "operation" = Some (VStr op) /\
    d !! "file_name" = Some fn /\ truthy fn = true /\
    ((caseless_eq op "GET" = true /\
      calls (snd (lambda_handler json_loads_sample (VDict request_update_null_metadata)
                    VNone world0)) = GetItem fn :: calls world0) \/
     (caseless_eq op "UPDATE" = true /\
      exists ns, d !! "new_state" = Some ns /\ truthy ns = true /\
        calls (snd (lambda_handler json_loads_sample (VDict request_update_null_metadata)
                      VNone world0))
          = UpdateItem fn ns (VStr (clock world0 (reads world0)))
              (default (VDict ∅) (d !! "metadata")) :: calls world0)).
Proof.
  apply (table_called_for_valid_requests json_loads_sample
           (VDict request_update_null_metadata) VNone world0).
  vm_compute. discriminate.
Defined.

(** ** The key attribute is kept *)

Lemma upserted_file_name (k : string) (ns ts md : value)
    (t : gmap string (gmap string value)) :
  key_consistent t -> upserted k ns ts md t !! "file_name" = Some (VStr k).
Proof.
  intros Ht. unfold upserted. rewrite !lookup_insert_ne by done.
  destruct (t !! k) as [item|] eqn:Hk; cbn [from_option id].
  - exact (Ht k item Hk).
  - apply lookup_singleton_eq.
Qed.

(** X7: the handler keeps the key attribute of the stored items.  If every
    item of the table carries the key it is stored under as its [file_name],
    this still holds after any request, a record created by an Update
    included. *)
Theorem lambda_handler_keeps_keys (json_loads : string -> result value)
    (event context : value) (w : world) :
  key_consistent (table w) ->
  key_consistent (table (snd (lambda_handler json_loads event context w))).
Proof.
  intros Hk. unfold lambda_handler.
  destruct (handle_valid_cases json_loads event w)
    as [(e & ->)|[(msg & ->)|[(d & op & fn & _ & _ & _ & _ & _ & ->)
       |(d & op & fn & ns & _ & _ & _ & _ & _ & _ & _ & ->)]]];
    try exact Hk.
  - destruct (get_state_outcome fn w) as [(r0 & -> & _)|(e & ->)]; exact Hk.
  - destruct (update_state_outcome fn ns (default (VDict ∅) (d !! "metadata")) w)
      as [(r0 & k & _ & _ & ->)|(e & ->)]; [|exact Hk].
    cbn [snd table set_table]. apply map_Forall_insert_2; [|exact Hk].
    now apply upserted_file_name.
Qed.

Lemma lambda_handler_keeps_keys_witness :
  key_consistent
    (table (snd (lambda_handler json_loads_sample (VDict request_update) VNone
                   world_with_record))).
Proof.
  apply (lambda_handler_keeps_keys json_loads_sample (VDict request_update) VNone
           world_with_record).
  apply map_Forall_singleton. reflexivity.
Defined.

(** X8: responses name the file asked for.  On a table whose items carry
    their key, the [file_name] of the response of a returning Get, record
    found or not, and of a returning Update is the file name that was
    passed. *)
Theorem responses_echo_file_name (k : string) (ns md : value) (w : world) :
  key_consistent (table w) ->
  (forall r w', get_state (VStr k) w = (inr r, w') ->
     body_field r "file_name" = Some (VStr k)) /\
  (forall r w', update_state (VStr k) ns md w = (inr r, w') ->
     body_field r "file_name" = Some (VStr k)).
Proof.
  intros Hk. split; intros r w'.
  - rewrite get_state_run. cbv zeta.
    destruct (faults w (length (calls w))) as [e|]; [discriminate|].
    destruct (table w !! k) as [item|] eqn:Hi; intros [= <- <-].
    + rewrite (Hk k item Hi). now fields.
    + now fields.
  - rewrite update_state_run. cbv zeta.
    destruct (faults w (length (calls w))) as [e|]; [discriminate|].
    intros [= <- <-]. rewrite (upserted_file_name _ _ _ _ _ Hk). now fields.
Qed.

Lemma responses_echo_file_name_witness :
  body_field (Response 200 (json_dumps (VDict
      {[ "file_name" := VStr "doc1.pdf"; "state" := VStr "PENDING_OCR";
         "metadata" := VDict ∅; "updated_at" := VNone;
         "exists" := VBool true ]}))) "file_name" = Some (VStr "doc1.pdf") /\
  body_field (Response 200 (json_dumps (VDict
      {[ "file_name" := VStr "doc1.pdf"; "state" := VStr "COMPLETED";
         "metadata" := VDict ∅; "updated_at" := VStr "2024-05-01T10:00:00.000125";
         "success" := VBool true ]}))) "file_name" = Some (VStr "doc1.pdf").
Proof.
  destruct (responses_echo_file_name "doc1.pdf" (VStr "COMPLETED") (VDict ∅)
              world_with_record) as [Hget Hupdate].
  - apply map_Forall_singleton. reflexivity.
  - split.
    + apply (Hget _ (snd (get_state (VStr "doc1.pdf") world_with_record))).
      vm_compute. reflexivity.
    + apply (Hupdate _ (snd (update_state (VStr "doc1.pdf") (VStr "COMPLETED") (VDict ∅)
                                world_with_record))).
      vm_compute. reflexivity.
Defined.

(** ** What the handler reads of a request *)

Section HandlerReads.

Variable json_loads : string -> result value.

(** X9: the operation is read without regard to letter case.  Two requests
    that differ only in the letter case of their [operation] string get the
    same response and have the same effects. *)
Theorem operation_case_insensitive (event event' context : value)
    (d : gmap string value) (op op' : string) (w : world) :
  parse_body json_loads event = inr (VDict d) ->
  d !! "operation" = Some (VStr op) ->
  caseless_eq op op' = true ->
  parse_body json_loads event' = inr (VDict (<[ "operation" := VStr op' ]> d)) ->
  lambda_handler json_loads event' context w = lambda_handler json_loads event context w.
Proof.
  intros Hb Hop Hc Hb'. rewrite caseless_eq_upper in Hc. apply String.eqb_eq in Hc.
  rewrite (lambda_handler_payload _ _ _ _ _ Hb), (lambda_handler_payload _ _ _ _ _ Hb').
  rewrite !dispatch_run, Hop, lookup_insert_eq.
  rewrite !(lookup_insert_ne d "operation") by done.
  cbn [from_option id py_upper]. now rewrite Hc.
Qed.

(** X10: the handler reads four fields of the payload.  Two payloads with
    the same [operation], [file_name], [new_state] and [metadata] get the
    same response and have the same effects, whatever else they carry. *)
Theorem handler_reads_four_fields (event event' context : value)
    (d d' : gmap string value) (w : world) :
  parse_body json_loads event = inr (VDict d) ->
  parse_body json_loads event' = inr (VDict d') ->
  d' !! "operation" = d !! "operation" ->
  d' !! "file_name" = d !! "file_name" ->
  d' !! "new_state" = d !! "new_state" ->
  d' !! "metadata" = d !! "metadata" ->
  lambda_handler json_loads event' context w = lambda_handler json_loads event context w.
Proof.
  intros Hb Hb' Hop Hfn Hns Hmd.
  rewrite (lambda_handler_payload _ _ _ _ _ Hb), (lambda_handler_payload _ _ _ _ _ Hb').
  now rewrite !dispatch_run, Hop, Hfn, Hns, Hmd.
Qed.

(** X11: a GET request is decided by its [operation] and [file_name] alone:
    a [new_state] or [metadata] it carries is ignored. *)
Theorem get_request_ignores_update_fields (event event' context : value)
    (d d' : gmap string value) (op : string) (w : world) :
  parse_body json_loads event = inr (VDict d) ->
  parse_body json_loads event' = inr (VDict d') ->
  d !! "operation" = Some (VStr op) ->
  caseless_eq op "GET" = true ->
  d' !! "operation" = d !! "operation" ->
  d' !! "file_name" = d !! "file_name" ->
  lambda_handler json_loads event' context w = lambda_handler json_loads event context w.
Proof.
  intros Hb Hb' Hop Hc Hop' Hfn. rewrite caseless_eq_GET in Hc.
  rewrite (lambda_handler_payload _ _ _ _ _ Hb), (lambda_handler_payload _ _ _ _ _ Hb').
  rewrite !dispatch_run, Hop', Hfn, Hop. cbn [from_option id py_upper]. cbv zeta.
  now rewrite Hc.
Qed.

End HandlerReads.

Lemma operation_case_insensitive_witness :
  lambda_handler json_loads_sample
      (VDict (<[ "operation" := VStr "GeT" ]> request_get)) VNone world_with_record
    = lambda_handler json_loads_sample (VDict request_get) VNone world_with_record.
Proof.
  apply (operation_case_insensitive json_loads_sample (VDict request_get)
           (VDict (<[ "operation" := VStr "GeT" ]> request_get)) VNone
           request_get "get" "GeT" world_with_record); reflexivity.
Defined.

Lemma handler_reads_four_fields_witness :
  lambda_handler json_loads_sample (VDict (<[ "trace_id" := VInt 42 ]> request_update))
      VNone world0
    = lambda_handler json_loads_sample (VDict request_update) VNone world0.
Proof.
  apply (handler_reads_four_fields json_loads_sample (VDict request_update)
           (VDict (<[ "trace_id" := VInt 42 ]> request_update)) VNone
           request_update (<[ "trace_id" := VInt 42 ]> request_update) world0);
    reflexivity.
Defined.

Lemma get_request_ignores_update_fields_witness :
  lambda_handler json_loads_sample (VDict request_get_annotated) VNone world_with_record
    = lambda_handler json_loads_sample (VDict request_get) VNone world_with_record.
Proof.
  apply (get_request_ignores_update_fields json_loads_sample (VDict request_get)
           (VDict request_get_annotated) VNone request_get request_get_annotated
           "get" world_with_record); reflexivity.
Defined.

(** ** Requests through the handler *)

Section HandlerRequests.

Variable json_loads : string -> result value.


(** X13: a [file_name] that is falsy is a missing one.  Whatever falsy
    value the field holds (null, false, 0, the empty string, list or
    mapping), a request whose [operation] is absent or a string is
    answered 400 "file_name is required", with no effect at all. *)
Theorem falsy_file_name_rejected (event context : value) (d : gmap string value)
    (fn : value) (op : string) (w : world) :
  parse_body json_loads event = inr (VDict d) ->
  d !! "file_name" = Some fn ->
  truthy fn = false ->
  default (VStr "") (d !! "operation") = VStr op ->
  lambda_handler json_loads event context w
    = (error_response 400 "file_name is required", w).
Proof.
  intros Hb Hfn Ht Hop.
  rewrite (lambda_handler_payload _ _ _ _ _ Hb), dispatch_run, Hop, Hfn.
  cbn [from_option id py_upper]. cbv zeta. now rewrite Ht.
Qed.

(** X14: a [new_state] that is falsy is a missing one.  An UPDATE request
    with a truthy [file_name] whose [new_state] is present but falsy is
    answered 400 "new_state is required for UPDATE operation", with no
    effect at all. *)
Theorem falsy_new_state_rejected (event context : value) (d : gmap string value)
    (fn ns : value) (op : string) (w : world) :
  parse_body json_loads event = inr (VDict d) ->
  d !! "operation" = Some (VStr op) ->
  caseless_eq op "UPDATE" = true ->
  d !! "file_name" = Some fn ->
  truthy fn = true ->
  d !! "new_state" = Some ns ->
  truthy ns = false ->
  lambda_handler json_loads event context w
    = (error_response 400 "new_state is required for UPDATE operation", w).
Proof.
  intros Hb Hop Hc Hfn Ht Hns Htn. rewrite caseless_eq_UPDATE in Hc.
  assert (Hg : String.eqb (upper op) "GET" = false).
  { apply String.eqb_eq in Hc. now rewrite Hc. }
  rewrite (lambda_handler_payload _ _ _ _ _ Hb), dispatch_run, Hop, Hfn, Hns.
  cbn [from_option id py_upper]. cbv zeta. now rewrite Ht, Htn, Hg, Hc.
Qed.

(** X15: a payload that is not an object is answered 500.  When the payload
    is anything but a JSON object (a list, a string, a number, null), the
    handler answers 500 with the text of the attribute error on [get],
    which names the payload's type; it prints one line and does not call
    the table. *)
Theorem non_object_payload_is_500 (event context b : value) (w : world) :
  parse_body json_loads event = inr b ->
  (forall d, b <> VDict d) ->
  lambda_handler json_loads event context w
    = (error_response 500 ("'" +:+ type_name b +:+ "' object has no attribute 'get'"),
       log_line [Lit "Error: ";
                 Fmt (VStr ("'" +:+ type_name b +:+ "' object has no attribute 'get'"))] w).
Proof.
  intros Hb Hd.
  now rewrite (lambda_handler_payload _ _ _ _ _ Hb), (dispatch_not_dict b w Hd).
Qed.

(** X16: what the handler prints.  A response other than 500 comes with
    nothing printed.  A 500 response carries the text of an exception, and
    either the table was not called and the one line "Error: <text>" was
    printed, or the failed call was a Get or an Update and two lines were
    printed: the line of [get_state] or [update_state] that names the file,
    then the "Error: <text>" line. *)
Theorem handler_printing (event context : value) (w w' : world) (r : response) :
  lambda_handler json_loads event context w = (r, w') ->
  (statusCode r <> 500%Z -> stdout w' = stdout w) /\
  (statusCode r = 500%Z ->
   exists e : exn,
     r = error_response 500 (str_exn e) /\
     ((calls w' = calls w /\
       stdout w' = [Lit "Error: "; Fmt (VStr (str_exn e))] :: stdout w) \/
      (exists fn,
         calls w' = GetItem fn :: calls w /\
         stdout w' = [Lit "Error: "; Fmt (VStr (str_exn e))]
                     :: [Lit "Error getting state for "; Fmt fn; Lit ": ";
                         Fmt (VStr (str_exn e))] :: stdout w) \/
      (exists fn ns ts md,
         calls w' = UpdateItem fn ns ts md :: calls w /\
         stdout w' = [Lit "Error: "; Fmt (VStr (str_exn e))]
                     :: [Lit "Error updating state for "; Fmt fn; Lit ": ";
                         Fmt (VStr (str_exn e))] :: stdout w))).
Proof.
  unfold lambda_handler.
  destruct (handle_valid_cases json_loads event w)
    as [(e & ->)|[(msg & ->)|[(d & op & fn & _ & _ & _ & _ & _ & ->)
       |(d & op & fn & ns & _ & _ & _ & _ & _ & _ & _ & ->)]]].
  - intros [= <- <-]. split; [intros H; now destruct H|].
    intros _. exists e. split; [reflexivity|]. left. split; reflexivity.
  - intros [= <- <-]. split; [reflexivity | discriminate].
  - destruct (get_state_outcome fn w) as [(r0 & -> & Hs)|(e & ->)]; intros [= <- <-].
    + split; [reflexivity|]. rewrite Hs. discriminate.
    + split; [intros H; now destruct H|].
      intros _. exists e. split; [reflexivity|]. right; left. exists fn.
      split; reflexivity.
  - destruct (update_state_outcome fn ns (default (VDict ∅) (d !! "metadata")) w)
      as [(r0 & k & _ & Hs & ->)|(e & ->)]; intros [= <- <-].
    + split; [reflexivity|]. rewrite Hs. discriminate.
    + split; [intros H; now destruct H|].
      intros _. exists e. split; [reflexivity|]. right; right.
      do 4 eexists. split; reflexivity.
Qed.


End HandlerRequests.


(** [{"operation": "GET", "file_name": 0}] *)
Lemma falsy_file_name_rejected_witness :
  lambda_handler json_loads_sample (VDict request_get_zero_name) VNone world0
    = (error_response 400 "file_name is required", world0).
Proof.
  apply (falsy_file_name_rejected json_loads_sample (VDict request_get_zero_name) VNone
           request_get_zero_name (VInt 0) "GET" world0); reflexivity.
Defined.

(** [{"operation": "UPDATE", "file_name": "doc1.pdf", "new_state": ""}] *)
Lemma falsy_new_state_rejected_witness :
  lambda_handler json_loads_sample (VDict request_update_empty_state) VNone world0
    = (error_response 400 "new_state is required for UPDATE operation", world0).
Proof.
  apply (falsy_new_state_rejected json_loads_sample (VDict request_update_empty_state) VNone
           request_update_empty_state (VStr "doc1.pdf") (VStr "") "UPDATE" world0);
    reflexivity.
Defined.

(** An event whose [body] is null: the payload is null, not the event, and
    the request fields beside the body are not looked at. *)
Lemma non_object_payload_is_500_witness :
  lambda_handler json_loads_sample (VDict event_null_body) VNone world0
    = (error_response 500 "'NoneType' object has no attribute 'get'",
       log_line [Lit "Error: ";
                 Fmt (VStr "'NoneType' object has no attribute 'get'")] world0).
Proof.
  apply (non_object_payload_is_500 json_loads_sample (VDict event_null_body) VNone VNone
           world0); [reflexivity | discriminate].
Defined.

(** An Update while the table is down: two lines are printed. *)
Lemma handler_printing_witness :
  exists e : exn,
    fst (lambda_handler json_loads_sample (VDict request_update) VNone world_down)
      = error_response 500 (str_exn e) /\
    ((calls (snd (lambda_handler json_loads_sample (VDict request_update) VNone world_down))
        = calls world_down /\
      stdout (snd (lambda_handler json_loads_sample (VDict request_update) VNone world_down))
        = [Lit "Error: "; Fmt (VStr (str_exn e))] :: stdout world_down) \/
     (exists fn,
        calls (snd (lambda_handler json_loads_sample (VDict request_update) VNone world_down))
          = GetItem fn :: calls world_down /\
        stdout (snd (lambda_handler json_loads_sample (VDict request_update) VNone world_down))
          = [Lit "Error: "; Fmt (VStr (str_exn e))]
            :: [Lit "Error getting state for "; Fmt fn; Lit ": ";
                Fmt (VStr (str_exn e))] :: stdout world_down) \/
     (exists fn ns ts md,
        calls (snd (lambda_handler json_loads_sample (VDict request_update) VNone world_down))
          = UpdateItem fn ns ts md :: calls world_down /\
        stdout (snd (lambda_handler json_loads_sample (VDict request_update) VNone world_down))
          = [Lit "Error: "; Fmt (VStr (str_exn e))]
            :: [Lit "Error updating state for "; Fmt fn; Lit ": ";
                Fmt (VStr (str_exn e))] :: stdout world_down)).
Proof.
  apply (proj2 (handler_printing json_loads_sample (VDict request_update) VNone world_down
                  (snd (lambda_handler json_loads_sample (VDict request_update) VNone
                          world_down))
                  (fst (lambda_handler json_loads_sample (VDict request_update) VNone
                          world_down))
                  ltac:(vm_compute; reflexivity))).
  vm_compute. reflexivity.
Defined.


(** ** The envelope, and the attributes an Update leaves alone *)

(** X18: a request sent as JSON text in [body] is handled as the same
    request passed directly.  When the event's [body] is a string that
    decodes to an object without a [body] field of its own, the handler
    answers and acts exactly as on that object given as the event. *)
Theorem string_body_as_direct_request (json_loads : string -> result value)
    (ev d : gmap string value) (s : string) (context : value) (w : world) :
  ev !! "body" = Some (VStr s) ->
  json_loads s = inr (VDict d) ->
  d !! "body" = None ->
  lambda_handler json_loads (VDict ev) context w
    = lambda_handler json_loads (VDict d) context w.
Proof.
  intros Hev Hs Hd.
  assert (Hb : parse_body json_loads (VDict ev) = inr (VDict d)).
  { unfold parse_body, py_get. now rewrite Hev. }
  assert (Hb' : parse_body json_loads (VDict d) = inr (VDict d)).
  { unfold parse_body, py_get. now rewrite Hd. }
  now rewrite (lambda_handler_payload _ _ _ _ _ Hb), (lambda_handler_payload _ _ _ _ _ Hb').
Qed.

(** The empty object as text and as the event. *)
Lemma string_body_as_direct_request_witness :
  lambda_handler json_loads_sample (VDict {[ "body" := VStr "{}" ]}) VNone world0
    = lambda_handler json_loads_sample (VDict ∅) VNone world0.
Proof.
  apply (string_body_as_direct_request json_loads_sample {[ "body" := VStr "{}" ]} ∅ "{}"
           VNone world0); reflexivity.
Defined.

(** X19: an Update sets three attributes and no other.  On a record that
    exists, a returning Update leaves every attribute other than [state],
    [updated_at] and [metadata] as it was. *)
Theorem update_state_keeps_other_attributes (k a : string) (ns md : value)
    (item : gmap string value) (w w' : world) (r : response) :
  table w !! k = Some item ->
  a <> "state" -> a <> "updated_at" -> a <> "metadata" ->
  update_state (VStr k) ns md w = (inr r, w') ->
  exists item' : gmap string value,
    table w' !! k = Some item' /\ item' !! a = item !! a.
Proof.
  intros Hk Hs Hu Hm. rewrite update_state_run. cbv zeta.
  destruct (faults w (length (calls w))) as [e|]; [discriminate|].
  intros [= <- <-]. cbn [table set_table]. eexists.
  split; [apply lookup_insert_eq|].
  unfold upserted. rewrite Hk. cbn [from_option id].
  now rewrite !lookup_insert_ne by congruence.
Qed.

(** The [file_name] attribute of the record of [doc1.pdf] across an Update. *)
Lemma update_state_keeps_other_attributes_witness :
  exists item' : gmap string value,
    table (snd (update_state (VStr "doc1.pdf") (VStr "COMPLETED") (VDict ∅)
                  world_with_record)) !! "doc1.pdf" = Some item' /\
    item' !! "file_name"
      = ({[ "file_name" := VStr "doc1.pdf"; "state" := VStr "PENDING_OCR" ]}
           : gmap string value) !! "file_name".
Proof.
  apply (update_state_keeps_other_attributes "doc1.pdf" "file_name" (VStr "COMPLETED")
           (VDict ∅) {[ "file_name" := VStr "doc1.pdf"; "state" := VStr "PENDING_OCR" ]}
           world_with_record
           (snd (update_state (VStr "doc1.pdf") (VStr "COMPLETED") (VDict ∅)
                   world_with_record))
           (Response 200 (json_dumps (VDict
              {[ "file_name" := VStr "doc1.pdf"; "state" := VStr "COMPLETED";
                 "metadata" := VDict ∅;
                 "updated_at" := VStr "2024-05-01T10:00:00.000125";
                 "success" := VBool true ]}))));
    first [discriminate | reflexivity].
Defined.
